(** * Ocean Hazard Alert API: classification, scoring and aggregation

    A shallow embedding of [backend/server.py]: the classification adapter
    ([classify_hazard_with_ai]), report creation ([create_report]), the two
    read-time scores computed inside [get_priority_reports] and
    [get_heatmap_data], the dashboard statistics and [delete_report].

    Conventions of the embedding.
    - Python values that flow through untyped dictionaries (the parsed
      model output, Mongo documents, JSON payloads) are terms of [pyval];
      a Python [dict] with string keys is a [gmap string pyval].
    - Python's binary64 floats are idealised as exact rationals ([Q]):
      [0.6] is the rational 6/10, [/] is exact division.  Equalities
      between scores are therefore stated with [==] on [Q].  Module
      [Binary64] repeats the two scoring formulas on IEEE binary64 floats,
      as Python evaluates them, and the statements about scores are
      re-checked there at the fixed points and over the documented range
      of [panic_index].
    - A Python exception is a value of [exn]; a computation that may raise
      has type [exn + A] ([inl e] raises [e], [inr a] returns [a]).
    - The document store [db.reports] is the list of its documents in
      retrieval order; operations that write take and return that list.
    - What the libraries decide (the model's reply, [json.loads],
      [uuid.uuid4], [datetime.now], base64 encoding) enters as an argument. *)

From Stdlib Require Import PrimFloat Uint63 FloatOps SpecFloat.
From Stdlib Require Import QArith Qround Qminmax Lqa.
From stdpp Require Import gmap strings list sorting.

Set Warnings "-register-all,-inexact-float".
Open Scope string_scope.

(** ** Python values and exceptions *)

Inductive pyval :=
| VNone
| VBool (b : bool)
| VInt (z : Z)
| VFloat (q : Q)
| VStr (s : string)
| VList (l : list pyval)
| VDict (d : gmap string pyval).

Abbreviation pydict := (gmap string pyval).

(** Every constructor stands for a subclass of Python's [Exception]. *)
Inductive exn :=
| ServiceError (msg : string)          (* network, timeout, service failure *)
| JSONDecodeError
| AttributeError (attr : string)
| KeyError (key : string)
| TypeError (msg : string)
| HTTPException (status_code : Z) (detail : string).

#[global] Instance exn_bind : MBind (sum exn) :=
  λ A B f m, match m with inl e => inl e | inr a => f a end.

Definition raise {A} (e : exn) : exn + A := inl e.

(** [d.get(key, default)] on a dictionary. *)
Definition dict_get {V} (d : gmap string V) (key : string) (dflt : V) : V :=
  default dflt (d !! key).

(** [d[key]]: raises [KeyError] when the key is absent. *)
Definition dict_item (d : pydict) (key : string) : exn + pyval :=
  match d !! key with
  | Some v => inr v
  | None => raise (KeyError key)
  end.

(** [result.get(key, default)] on an arbitrary value: only a [dict] has
    the method, anything else raises [AttributeError]. *)
Definition py_get (result : pyval) (key : string) (dflt : pyval) : exn + pyval :=
  match result with
  | VDict d => inr (dict_get d key dflt)
  | _ => raise (AttributeError "get")
  end.

(** ** Pydantic models (server.py, lines 44-74) *)

Module Location.
Record t := mk {
  latitude : Q;
  longitude : Q;
  address : option string
}.
End Location.

Module HazardReport.
Record t := mk {
  id : string;
  name : string;
  location : Location.t;
  hazard_type : string;
  description : string;
  media_base64 : option string;
  media_type : option string;
  severity : option string;
  panic_index : option Z;
  ai_category : option string;
  created_at : string;
  status : string
}.
End HazardReport.

Module PriorityReport.
Record t := mk {
  report : HazardReport.t;
  priority_score : Q
}.
End PriorityReport.

(** ** Classification adapter (lines 86-138) *)

(** What happened inside the [try] block up to and including
    [json.loads(response)]. *)
Inductive llm_outcome :=
| CallRaises (e : exn)          (* the block raised [e], no JSONDecodeError of json.loads *)
| NotJson (response : string)   (* json.loads raised JSONDecodeError *)
| Json (result : pyval).        (* json.loads returned [result] *)

Definition fallback (hazard_type reasoning : string) : pydict :=
  {[ "severity" := VStr "Medium";
     "panic_index" := VInt 50;
     "ai_category" := VStr hazard_type;
     "reasoning" := VStr reasoning ]}.

(** The body of the outer [try], with the inner [try]/[except
    json.JSONDecodeError] resolved: a failure of [result.get] is not a
    [JSONDecodeError] and leaves the inner handler. *)
Definition classify_try (hazard_type : string) (o : llm_outcome) : exn + pydict :=
  match o with
  | CallRaises e => raise e
  | NotJson _ => inr (fallback hazard_type "AI analysis completed")
  | Json result =>
      sev ← py_get result "severity" (VStr "Medium");
      panic ← py_get result "panic_index" (VInt 50);
      cat ← py_get result "ai_category" (VStr hazard_type);
      why ← py_get result "reasoning" (VStr "AI analysis completed");
      inr ({[ "severity" := sev;
              "panic_index" := panic;
              "ai_category" := cat;
              "reasoning" := why ]} : pydict)
  end.

(** [except Exception as e]: every [exn] is caught. *)
Definition classify_hazard_with_ai (description hazard_type : string)
    (o : llm_outcome) : exn + pydict :=
  match classify_try hazard_type o with
  | inr r => inr r
  | inl _ => inr (fallback hazard_type "Default classification applied")
  end.

(** ** Report creation (lines 168-216) *)

Module UploadFile.
Record t := mk {
  content_base64 : string;   (* base64.b64encode(content).decode('utf-8') *)
  content_type : option string
}.
End UploadFile.

Definition of_opt_str (o : option string) : pyval :=
  match o with Some s => VStr s | None => VNone end.

Definition of_opt_int (o : option Z) : pyval :=
  match o with Some z => VInt z | None => VNone end.

(** [report.dict()]: the attribute dictionary of a model instance, nested
    models converted recursively. *)
Definition location_dict (l : Location.t) : pydict :=
  {[ "latitude" := VFloat (Location.latitude l);
     "longitude" := VFloat (Location.longitude l);
     "address" := of_opt_str (Location.address l) ]}.

Definition report_dict (r : HazardReport.t) : pydict :=
  {[ "id" := VStr (HazardReport.id r);
     "name" := VStr (HazardReport.name r);
     "location" := VDict (location_dict (HazardReport.location r));
     "hazard_type" := VStr (HazardReport.hazard_type r);
     "description" := VStr (HazardReport.description r);
     "media_base64" := of_opt_str (HazardReport.media_base64 r);
     "media_type" := of_opt_str (HazardReport.media_type r);
     "severity" := of_opt_str (HazardReport.severity r);
     "panic_index" := of_opt_int (HazardReport.panic_index r);
     "ai_category" := of_opt_str (HazardReport.ai_category r);
     "created_at" := VStr (HazardReport.created_at r);
     "status" := VStr (HazardReport.status r) ]}.

(** No [pyval] is a [datetime] instance ([created_at] is already an ISO
    string), so the loop of [prepare_for_mongo] rewrites nothing. *)
Definition prepare_for_mongo (data : pydict) : pydict := data.

(** [db.reports.insert_one]; the [_id] key the driver adds to the
    document is not modelled. *)
Definition insert_one (doc : pydict) (db : list pydict) : list pydict :=
  db ++ [doc].

(** [fresh_id] and [now] are the values drawn by the two default
    factories of [HazardReport].  Attribute assignment on a model
    instance is not validated, so the three classification fields hold
    whatever value the adapter returned.  The result is the report as
    returned and stored, with the store after the insert. *)
Definition create_report (fresh_id now : string)
    (name : string) (latitude longitude : Q) (address hazard_type description : string)
    (media : option UploadFile.t) (o : llm_outcome) (db : list pydict)
  : exn + (pydict * list pydict) :=
  let media_base64 := UploadFile.content_base64 <$> media in
  let media_type := media ≫= UploadFile.content_type in
  let location := Location.mk latitude longitude (Some address) in
  let report :=
    HazardReport.mk fresh_id name location hazard_type description
      media_base64 media_type None None None now "pending" in
  ai_result ← classify_hazard_with_ai description hazard_type o;
  sev ← dict_item ai_result "severity";
  panic ← dict_item ai_result "panic_index";
  cat ← dict_item ai_result "ai_category";
  let fields :=
    <["ai_category" := cat]>
      (<["panic_index" := panic]>
         (<["severity" := sev]> (report_dict report))) in
  let doc := prepare_for_mongo fields in
  inr (doc, insert_one doc db).

(** ** Scoring (lines 233-237 and 258-262) *)

(** [x or dflt] for an [Optional[int]]: [None] and [0] are falsy. *)
Definition py_or (x : option Z) (dflt : Z) : Z :=
  match x with
  | Some z => if (z =? 0)%Z then dflt else z
  | None => dflt
  end.

(** [d.get(key, default)] where the key may be [None], which is no key
    of a dictionary with string keys. *)
Definition dict_get_opt {V} (d : gmap string V) (key : option string) (dflt : V) : V :=
  match key with
  | Some s => dict_get d s dflt
  | None => dflt
  end.

Definition severity_weights : gmap string Z :=
  {[ "Low" := 1; "Medium" := 2; "High" := 3 ]}%Z.

Definition severity_score (report : HazardReport.t) : Z :=
  dict_get_opt severity_weights (HazardReport.severity report) 2%Z.

Definition panic_score (report : HazardReport.t) : Q :=
  (inject_Z (py_or (HazardReport.panic_index report) 50) / 100)%Q.

Definition priority_score (report : HazardReport.t) : Q :=
  ((inject_Z (severity_score report) * 0.6) + (panic_score report * 0.4))%Q.

Definition intensity_weights : gmap string Q :=
  {[ "Low" := 0.3; "Medium" := 0.6; "High" := 1.0 ]}%Q.

Definition intensity (report : HazardReport.t) : Q :=
  dict_get_opt intensity_weights (HazardReport.severity report) 0.5%Q.

Definition panic_boost (report : HazardReport.t) : Q :=
  (inject_Z (py_or (HazardReport.panic_index report) 50) / 200)%Q.

Definition final_intensity (report : HazardReport.t) : Q :=
  Qmin (intensity report + panic_boost report)%Q 1.0%Q.

(** ** The scoring formulas in binary64 *)

Module Binary64.

(** [float(z)], exact for integers below 2^53 in magnitude. *)
Definition of_int (z : Z) : float :=
  match z with
  | Z0 => 0%float
  | Zpos _ => PrimFloat.of_uint63 (Uint63.of_Z z)
  | Zneg p => (- PrimFloat.of_uint63 (Uint63.of_Z (Zpos p)))%float
  end.

Definition score_of (weight panic : Z) : float :=
  ((of_int weight * 0.6) + ((of_int panic / of_int 100) * 0.4))%float.

Definition priority_score (report : HazardReport.t) : float :=
  score_of (severity_score report) (py_or (HazardReport.panic_index report) 50).

Definition intensity_weights : gmap string float :=
  {[ "Low" := 0.3; "Medium" := 0.6; "High" := 1.0 ]}%float.

Definition intensity (report : HazardReport.t) : float :=
  dict_get_opt intensity_weights (HazardReport.severity report) 0.5%float.

(** [min(x, 1.0)]: the first argument unless the second is smaller. *)
Definition intensity_of (base : float) (panic : Z) : float :=
  let x := (base + of_int panic / of_int 200)%float in
  if (1.0 <? x)%float then 1.0%float else x.

Definition final_intensity (report : HazardReport.t) : float :=
  intensity_of (intensity report) (py_or (HazardReport.panic_index report) 50).

(** Exhaustive checks over the values [1..100] that [x or 50] takes on
    the documented range. *)
Definition panics : list Z := seqZ 1 100.


Definition score_ok (weight : Z) : bool :=
  forallb (λ p, let s := score_of weight p in
                (0.6 <=? s)%float && (s <=? 2.2)%float) panics.

Definition score_mono_ok : bool :=
  forallb (λ w, forallb (λ p, forallb (λ p',
    implb (p <=? p')%Z (score_of w p <=? score_of w p')%float) panics) panics)
    [1; 2; 3]%Z
  && forallb (λ p, (score_of 1 p <=? score_of 2 p)%float
                   && (score_of 2 p <=? score_of 3 p)%float) panics.

End Binary64.

(** ** Priority list (lines 224-247) *)

(** [l.sort(key=key, reverse=True)].  The sort is stable, and with
    [reverse=True] elements with equal keys still keep their original
    order; it is modelled by insertion from the right, where an element
    moves past exactly the elements whose key is strictly greater. *)
Section sort.
Context {A : Type} (key : A → Q).

Fixpoint insert_desc (x : A) (l : list A) : list A :=
  match l with
  | [] => [x]
  | y :: l' =>
      if Qle_bool (key y) (key x) then x :: y :: l'
      else y :: insert_desc x l'
  end.

Definition sort_reverse (l : list A) : list A := foldr insert_desc [] l.

(** [a] may stand before [b] in a descending list; [a] has key [k]. *)
Definition desc (a b : A) : Prop := (key b <= key a)%Q.
Definition tied (k : Q) (a : A) : bool := Qeq_bool (key a) k.
End sort.

(** [reports] is the list of validated [HazardReport] instances built
    from the documents of [db.reports.find()], in retrieval order. *)
Definition priority_reports (reports : list HazardReport.t) : list PriorityReport.t :=
  (λ report, PriorityReport.mk report (priority_score report)) <$> reports.

Definition get_priority_reports (reports : list HazardReport.t) : list PriorityReport.t :=
  take 10 (sort_reverse PriorityReport.priority_score (priority_reports reports)).

(** ** Heatmap payload (lines 249-272) *)

Definition heatmap_point (report : HazardReport.t) : pydict :=
  {[ "lat" := VFloat (Location.latitude (HazardReport.location report));
     "lng" := VFloat (Location.longitude (HazardReport.location report));
     "intensity" := VFloat (final_intensity report);
     "hazard_type" := VStr (HazardReport.hazard_type report);
     "severity" := of_opt_str (HazardReport.severity report) ]}.

Definition get_heatmap_data (reports : list HazardReport.t) : pydict :=
  {[ "heatmap_data" := VList ((λ report, VDict (heatmap_point report)) <$> reports) ]}.

(** ** Store queries *)

(** A query filter [{k1: s1, ...}] with string values; [{}] is [[]].  A
    document matches when each named field holds exactly that string. *)
Definition field_is (doc : pydict) (kv : string * string) : bool :=
  match doc !! kv.1 with
  | Some (VStr s) => bool_decide (s = kv.2)
  | _ => false
  end.

Definition doc_matches (flt : list (string * string)) (doc : pydict) : bool :=
  forallb (field_is doc) flt.

Definition count_documents (flt : list (string * string)) (db : list pydict) : Z :=
  Z.of_nat (length (List.filter (doc_matches flt) db)).

(** [delete_one]: the first matching document is removed; the result
    carries [deleted_count]. *)
Fixpoint delete_one (flt : list (string * string)) (db : list pydict) : Z * list pydict :=
  match db with
  | [] => (0%Z, [])
  | doc :: db' =>
      if doc_matches flt doc then (1%Z, db')
      else let '(n, rest) := delete_one flt db' in (n, doc :: rest)
  end.

(** ** Dashboard statistics (lines 283-314) *)

(** [a + b]: defined on numbers ([bool] is a subclass of [int]), a
    [TypeError] otherwise. *)
Definition as_number (v : pyval) : option (Z + Q) :=
  match v with
  | VBool b => Some (inl (if b then 1 else 0)%Z)
  | VInt z => Some (inl z)
  | VFloat q => Some (inr q)
  | _ => None
  end.

Definition to_Q (n : Z + Q) : Q :=
  match n with inl z => inject_Z z | inr q => q end.

Definition py_add (a b : pyval) : exn + pyval :=
  match as_number a, as_number b with
  | Some (inl x), Some (inl y) => inr (VInt (x + y))
  | Some x, Some y => inr (VFloat (to_Q x + to_Q y))
  | _, _ => raise (TypeError "unsupported operand type(s) for +")
  end.

(** [sum(values)]: starts from the integer 0 and adds from the left. *)
Definition py_sum (values : list pyval) : exn + pyval :=
  foldl (λ acc v, a ← acc; py_add a v) (inr (VInt 0)) values.

(** [round(x, 1)]: the closest multiple of 1/10, a tie going to the even
    multiple. *)
Definition py_round1 (x : Q) : Q :=
  let y := (x * 10)%Q in
  let f := Qfloor y in
  let up :=
    match (y - inject_Z f ?= 1 # 2)%Q with
    | Lt => false
    | Gt => true
    | Eq => Z.odd f
    end in
  (inject_Z (if up then f + 1 else f) / 10)%Q.

Definition total_panic (reports : list pydict) : exn + pyval :=
  py_sum ((λ report, dict_get report "panic_index" (VInt 50)) <$> reports).

(** [total_panic / total_reports if total_reports > 0 else 0]. *)
Definition avg_panic (total : pyval) (total_reports : Z) : exn + Q :=
  if (0 <? total_reports)%Z then
    match as_number total with
    | Some n => inr (to_Q n / inject_Z total_reports)%Q
    | None => raise (TypeError "unsupported operand type(s) for /")
    end
  else inr 0%Q.

(** The [hazard_types] tally (lines 293-298) is an entry of its own,
    computed from the [hazard_type] field alone; this model leaves it out
    of the returned dictionary. *)
Definition get_dashboard_stats (db : list pydict) : exn + pydict :=
  let total_reports := count_documents [] db in
  let high_severity := count_documents [("severity", "High")] db in
  let medium_severity := count_documents [("severity", "Medium")] db in
  let low_severity := count_documents [("severity", "Low")] db in
  total ← total_panic db;
  avg ← avg_panic total total_reports;
  inr ({[ "total_reports" := VInt total_reports;
          "severity_breakdown" :=
            VDict {[ "high" := VInt high_severity;
                     "medium" := VInt medium_severity;
                     "low" := VInt low_severity ]};
          "average_panic_index" := VFloat (py_round1 avg);
          "active_alerts" := VInt high_severity ]} : pydict).

(** ** Deletion (lines 316-322) *)

Definition delete_report (report_id : string) (db : list pydict)
  : (exn + pydict) * list pydict :=
  let '(deleted_count, db') := delete_one [("id", report_id)] db in
  if (deleted_count =? 0)%Z
  then (raise (HTTPException 404 "Report not found"), db')
  else (inr {[ "message" := VStr "Report deleted successfully" ]}, db').

(** The value [create_report] receives for a classification key: the
    reply's own value when the reply is an object with that key, the
    default otherwise. *)
Definition classified (o : llm_outcome) (key : string) (dflt : pyval) : pyval :=
  match o with
  | Json (VDict d) => dict_get d key dflt
  | _ => dflt
  end.

(** ** Predicates used in the statements *)

(** The documented range of [panic_index] ("0-100"), for an optional
    field. *)
Definition panic_in_range (report : HazardReport.t) : Prop :=
  match HazardReport.panic_index report with
  | Some z => (0 <= z <= 100)%Z
  | None => True
  end.


(** [z] is what a stored document contributes to [total_panic]: its
    integer panic_index, or 50 when the document has no such key. *)
Definition contributes (doc : pydict) (z : Z) : Prop :=
  doc !! "panic_index" = Some (VInt z) ∨
  (doc !! "panic_index" = None ∧ z = 50%Z).

Definition has_id (report_id : string) (doc : pydict) : Prop :=
  doc !! "id" = Some (VStr report_id).



(** ** Sample data *)

Definition sample_report (severity : option string) (panic_index : option Z)
  : HazardReport.t :=
  HazardReport.mk "r-1" "Asha" (Location.mk 13.08 80.27 (Some "Marina Beach"))
    "Flood" "Water rising near the pier" None None severity panic_index None
    "2025-01-01T00:00:00+00:00" "pending".

Definition sample_with_id (report_id : string) (severity : option string)
    (panic_index : option Z) : HazardReport.t :=
  HazardReport.mk report_id "Asha" (Location.mk 13.08 80.27 None)
    "Cyclone" "Strong winds offshore" None None severity panic_index None
    "2025-01-01T00:00:00+00:00" "pending".

Definition sample_reports : list HazardReport.t :=
  [ sample_with_id "a" (Some "Low") (Some 10%Z);
    sample_with_id "b" (Some "High") (Some 90%Z);
    sample_with_id "c" (Some "Low") (Some 10%Z) ].

Definition sample_reports_in_range : list HazardReport.t :=
  [ sample_with_id "a" (Some "Low") (Some 1%Z);
    sample_with_id "b" (Some "High") (Some 100%Z);
    sample_with_id "c" None None ].

(** A store holding the three sample reports, ids a, b, c. *)
Definition sample_db : list pydict := report_dict <$> sample_reports.

(** A well-formed JSON reply whose panic index is 500. *)
Definition reply_out_of_range : llm_outcome :=
  Json (VDict {[ "severity" := VStr "High";
                 "panic_index" := VInt 500;
                 "ai_category" := VStr "Storm surge";
                 "reasoning" := VStr "Extreme conditions" ]}).


(** A JSON reply that maps panic_index to [null]. *)
Definition reply_null_panic : llm_outcome :=
  Json (VDict {[ "severity" := VStr "High";
                 "panic_index" := VNone;
                 "ai_category" := VStr "Storm surge" ]}).


(** Create a report named by [fresh_id] from a fixed form submission. *)
Definition sample_create (fresh_id : string) (o : llm_outcome) (db : list pydict)
  : exn + (pydict * list pydict) :=
  create_report fresh_id "2025-01-01T00:00:00+00:00"
    "Asha" 13.08 80.27 "Marina Beach" "Flood" "Water rising near the pier"
    None o db.

(** ** Hazard-type tally (lines 293-298) *)

(** Lists and dictionaries are unhashable and cannot be dictionary keys. *)
Definition hashable (v : pyval) : bool :=
  match v with
  | VList _ | VDict _ => false
  | _ => true
  end.

(** Equality of dictionary keys: [None] equals itself, strings are equal
    when identical, numbers ([bool], [int], [float]) when they have the same
    value. *)
Definition py_key_eq (a b : pyval) : bool :=
  match a, b with
  | VNone, VNone => true
  | VStr s, VStr t => bool_decide (s = t)
  | _, _ =>
      match as_number a, as_number b with
      | Some x, Some y => Qeq_bool (to_Q x) (to_Q y)
      | _, _ => false
      end
  end.

(** A dictionary with arbitrary hashable keys and integer values, in
    insertion order: [d.get(key, dflt)] and [d[key] = n]. *)
Fixpoint counts_get (counts : list (pyval * Z)) (key : pyval) (dflt : Z) : Z :=
  match counts with
  | [] => dflt
  | (k, n) :: rest => if py_key_eq k key then n else counts_get rest key dflt
  end.

Fixpoint counts_set (counts : list (pyval * Z)) (key : pyval) (n : Z)
  : list (pyval * Z) :=
  match counts with
  | [] => [(key, n)]
  | (k, m) :: rest =>
      if py_key_eq k key then (k, n) :: rest
      else (k, m) :: counts_set rest key n
  end.

Definition hazard_type_of (report : pydict) : pyval :=
  dict_get report "hazard_type" (VStr "Other").

Definition count_hazard_type (hazard_types : list (pyval * Z)) (report : pydict)
  : exn + list (pyval * Z) :=
  let hazard_type := hazard_type_of report in
  if hashable hazard_type
  then inr (counts_set hazard_types hazard_type
              (counts_get hazard_types hazard_type 0 + 1))
  else raise (TypeError "unhashable type").

Definition hazard_types (reports : list pydict) : exn + list (pyval * Z) :=
  foldl (λ acc report, counts ← acc; count_hazard_type counts report)
        (inr []) reports.

Definition has_hazard_type (s : string) (report : pydict) : bool :=
  match hazard_type_of report with
  | VStr t => bool_decide (t = s)
  | _ => false
  end.

Definition counts_total (counts : list (pyval * Z)) : Z :=
  foldr (λ kv acc, (kv.2 + acc)%Z) 0%Z counts.

Definition string_keyed (counts : list (pyval * Z)) : Prop :=
  Forall (λ kv, ∃ s, kv.1 = VStr s) counts.

(** ** Relating the binary64 scores to the exact ones *)

(** The rational a finite float denotes. *)
Definition Q_of_float (x : float) : option Q :=
  match Prim2SF x with
  | S754_zero _ => Some 0%Q
  | S754_finite s m e =>
      let v := (inject_Z (Zpos m) * Qpower 2 e)%Q in
      Some (if s then (- v)%Q else v)
  | _ => None
  end.

Definition tolerance : Q := (1 # 1000000000000000)%Q.

Definition close_to (x : float) (q : Q) : bool :=
  match Q_of_float x with
  | Some v => Qle_bool (q - tolerance) v && Qle_bool v (q + tolerance)
  | None => false
  end.

Definition exact_score (weight panic : Z) : Q :=
  ((inject_Z weight * 0.6) + (inject_Z panic / 100 * 0.4))%Q.

Definition exact_intensity (base : Q) (panic : Z) : Q :=
  Qmin (base + inject_Z panic / 200)%Q 1.0%Q.

Definition intensity_bases : list (float * Q) :=
  [ (0.3%float, 0.3%Q); (0.6%float, 0.6%Q); (1.0%float, 1.0%Q); (0.5%float, 0.5%Q) ].

Definition grid : list (Z * Z) := list_prod [1; 2; 3]%Z Binary64.panics.

Definition scores_close_ok : bool :=
  forallb (λ wp, close_to (Binary64.score_of wp.1 wp.2) (exact_score wp.1 wp.2)) grid.

Definition intensities_close_ok : bool :=
  forallb (λ b, forallb (λ p,
    close_to (Binary64.intensity_of b.1 p) (exact_intensity b.2 p)) Binary64.panics)
    intensity_bases.

Definition order_agrees_ok : bool :=
  forallb (λ a, forallb (λ b,
    bool_decide ((Binary64.score_of a.1 a.2 <=? Binary64.score_of b.1 b.2)%float
                 = Qle_bool (exact_score a.1 a.2) (exact_score b.1 b.2))) grid) grid.

(** The priority list as Python computes it, comparing binary64 keys. *)
Fixpoint float_insert_desc (x : HazardReport.t) (l : list HazardReport.t)
  : list HazardReport.t :=
  match l with
  | [] => [x]
  | y :: l' =>
      if (Binary64.priority_score y <=? Binary64.priority_score x)%float
      then x :: y :: l'
      else y :: float_insert_desc x l'
  end.

Definition float_priority_reports (reports : list HazardReport.t)
  : list HazardReport.t :=
  take 10 (foldr float_insert_desc [] reports).

(** ** Further predicates and sample data *)


Definition success_message : pydict :=
  {[ "message" := VStr "Report deleted successfully" ]}.

Definition is_object (o : llm_outcome) : Prop :=
  match o with Json (VDict _) => True | _ => False end.

(** The document carries the id, as the filter of [delete_report] sees it. *)
Definition carries (report_id : string) (doc : pydict) : bool :=
  doc_matches [("id", report_id)] doc.






(** Rank of the three known severities. *)
Definition severity_rank (severity : string) : option nat :=
  if decide (severity = "Low") then Some 1%nat
  else if decide (severity = "Medium") then Some 2%nat
  else if decide (severity = "High") then Some 3%nat
  else None.


(** A document without a hazard_type key, next to the sample store. *)
Definition sample_db_types : list pydict :=
  report_dict (sample_report (Some "Low") (Some 20%Z))
  :: delete "hazard_type" (report_dict (sample_report None None))
  :: sample_db.

(** A store whose only document has a list as its hazard_type. *)
Definition sample_db_unhashable : list pydict :=
  [<["hazard_type" := VList [VStr "Flood"; VStr "Cyclone"]]>
     (report_dict (sample_report None None))].

(** * Properties *)

(** ** The stable descending sort *)

Section sort_facts.
Context {A : Type} (key : A → Q).

Lemma insert_desc_perm x l : insert_desc key x l ≡ₚ x :: l.
Proof.
  induction l as [|y l IH]; simpl; [done|].
  destruct (Qle_bool (key y) (key x)); [done|].
  rewrite IH. apply Permutation_swap.
Qed.

Lemma sort_reverse_perm l : sort_reverse key l ≡ₚ l.
Proof.
  induction l as [|x l IH]; simpl; [done|].
  by rewrite insert_desc_perm, IH.
Qed.

Lemma insert_desc_sorted x l :
  StronglySorted (desc key) l → StronglySorted (desc key) (insert_desc key x l).
Proof.
  induction 1 as [|y l Hl IH Hy]; simpl.
  - repeat constructor.
  - destruct (Qle_bool (key y) (key x)) eqn:E.
    + apply Qle_bool_iff in E.
      constructor; [by constructor|].
      constructor; [exact E|].
      eapply Forall_impl; [exact Hy|].
      intros z Hz. unfold desc in *. lra.
    + assert (key x < key y)%Q as Hlt.
      { apply Qnot_le_lt. intros Hle. apply Qle_bool_iff in Hle. congruence. }
      constructor; [exact IH|].
      rewrite insert_desc_perm. constructor; [|exact Hy].
      unfold desc. lra.
Qed.

Lemma sort_reverse_sorted l : StronglySorted (desc key) (sort_reverse key l).
Proof.
  induction l as [|x l IH]; simpl; [constructor|].
  by apply insert_desc_sorted.
Qed.

Lemma insert_desc_tied k x l :
  List.filter (tied key k) (insert_desc key x l) = List.filter (tied key k) (x :: l).
Proof.
  induction l as [|y l IH]; [done|].
  cbn [insert_desc]. destruct (Qle_bool (key y) (key x)) eqn:E; [done|].
  cbn [List.filter] in *. rewrite IH.
  destruct (tied key k x) eqn:Ex, (tied key k y) eqn:Ey; try done.
  unfold tied in *. apply Qeq_bool_iff in Ex, Ey.
  assert (Qle_bool (key y) (key x) = true) as E'; [|congruence].
  apply Qle_bool_iff. rewrite Ex, Ey. apply Qle_refl.
Qed.

Lemma sort_reverse_stable k l :
  List.filter (tied key k) (sort_reverse key l) = List.filter (tied key k) l.
Proof.
  induction l as [|x l IH]; [done|].
  cbn [sort_reverse foldr]. rewrite insert_desc_tied.
  cbn [List.filter]. fold (sort_reverse key l). by rewrite IH.
Qed.

Lemma filter_take_prefix (p : A → bool) n l :
  List.filter p (take n l) `prefix_of` List.filter p l.
Proof.
  exists (List.filter p (drop n l)).
  by rewrite <- List.filter_app, take_drop.
Qed.

Lemma StronglySorted_take (R : A → A → Prop) n l :
  StronglySorted R l → StronglySorted R (take n l).
Proof.
  intros H. revert n. induction H as [|x l Hl IH Hx]; intros [|n]; simpl; try constructor.
  - apply IH.
  - apply Forall_take, Hx.
Qed.
End sort_facts.

(** ** Scoring *)

Lemma severity_score_cases report :
  severity_score report = 1%Z ∨ severity_score report = 2%Z ∨ severity_score report = 3%Z.
Proof.
  unfold severity_score, dict_get_opt, dict_get, severity_weights.
  destruct (HazardReport.severity report) as [s|]; [|auto].
  destruct (decide (s = "Low")) as [->|]; [left; reflexivity|].
  destruct (decide (s = "Medium")) as [->|]; [right; left; reflexivity|].
  destruct (decide (s = "High")) as [->|]; [right; right; reflexivity|].
  right; left. by rewrite !lookup_insert_ne, lookup_singleton_ne by done.
Qed.


(** [x or 50] never yields 0: a stored 0 is replaced like a missing value. *)
Lemma py_or_zero dflt : py_or (Some 0%Z) dflt = dflt.
Proof. reflexivity. Qed.

Lemma py_or_nonzero z dflt : z ≠ 0%Z → py_or (Some z) dflt = z.
Proof. intros Hz. unfold py_or. by destruct (Z.eqb_spec z 0). Qed.

Lemma py_or_range x :
  match x with Some z => (0 <= z <= 100)%Z | None => True end →
  (1 <= py_or x 50 <= 100)%Z.
Proof.
  intros Hx. unfold py_or. destruct x as [z|]; [|lia].
  destruct (Z.eqb_spec z 0); lia.
Qed.




(** The score grows with the severity weight, whatever the panic index. *)
Lemma priority_score_mono_severity r1 r2 :
  HazardReport.panic_index r1 = HazardReport.panic_index r2 →
  (severity_score r1 <= severity_score r2)%Z →
  (priority_score r1 <= priority_score r2)%Q.
Proof.
  intros Hp Hs. unfold priority_score, panic_score. rewrite Hp.
  rewrite Zle_Qle in Hs. lra.
Qed.

(** The score grows with the panic index as long as neither value is 0. *)
Lemma priority_score_mono_panic r1 r2 p1 p2 :
  HazardReport.severity r1 = HazardReport.severity r2 →
  HazardReport.panic_index r1 = Some p1 →
  HazardReport.panic_index r2 = Some p2 →
  p1 ≠ 0%Z → p2 ≠ 0%Z → (p1 <= p2)%Z →
  (priority_score r1 <= priority_score r2)%Q.
Proof.
  intros Hs H1 H2 Hz1 Hz2 Hle.
  unfold priority_score, panic_score, severity_score.
  rewrite Hs, H1, H2, !py_or_nonzero by done.
  rewrite Zle_Qle in Hle.
  set (q1 := inject_Z p1) in *. set (q2 := inject_Z p2) in *.
  change (q1 / 100)%Q with (q1 * (1 # 100))%Q.
  change (q2 / 100)%Q with (q2 * (1 # 100))%Q.
  lra.
Qed.

(** *** The same formulas in binary64 *)

Lemma py_or_in_panics report :
  panic_in_range report →
  py_or (HazardReport.panic_index report) 50 ∈ Binary64.panics.
Proof.
  intros Hp. apply py_or_range in Hp.
  unfold Binary64.panics. apply elem_of_seqZ. lia.
Qed.



(** In binary64 too, the score of an in-range report lies in [0.6, 2.2]. *)
Lemma binary64_priority_score_bounds report :
  panic_in_range report →
  (0.6 <=? Binary64.priority_score report)%float = true ∧
  (Binary64.priority_score report <=? 2.2)%float = true.
Proof.
  intros Hp. apply py_or_in_panics, list_elem_of_In in Hp.
  unfold Binary64.priority_score.
  assert (Binary64.score_ok (severity_score report) = true) as Hok.
  { destruct (severity_score_cases report) as [-> | [-> | ->]];
      vm_compute; reflexivity. }
  unfold Binary64.score_ok in Hok. rewrite forallb_forall in Hok.
  apply Hok, andb_true_iff in Hp. exact Hp.
Qed.

(** In binary64 the score is monotone in the panic value on [1, 100] and
    in the severity weight. *)
Lemma binary64_score_monotone : Binary64.score_mono_ok = true.
Proof. vm_compute. reflexivity. Qed.

(** The three fixed points in binary64: High/100 evaluates to
    2.1999999999999997, one unit in the last place below the float 2.2;
    Low/0 evaluates to 0.8 and 0.55; both absent to 1.4 and 0.75. *)
Lemma binary64_fixed_points :
  (Binary64.priority_score (sample_report (Some "High") (Some 100%Z))
     =? 0x1.1999999999999p+1)%float = true ∧
  (Binary64.priority_score (sample_report (Some "High") (Some 100%Z))
     <? 2.2)%float = true ∧
  (Binary64.final_intensity (sample_report (Some "High") (Some 100%Z))
     =? 1.0)%float = true ∧
  (Binary64.priority_score (sample_report (Some "Low") (Some 0%Z)) =? 0.8)%float = true ∧
  (Binary64.final_intensity (sample_report (Some "Low") (Some 0%Z)) =? 0.55)%float = true ∧
  (Binary64.priority_score (sample_report None None) =? 1.4)%float = true ∧
  (Binary64.final_intensity (sample_report None None) =? 0.75)%float = true.
Proof. vm_compute. repeat split. Qed.

(** C1 (the code departs from the claim): the scores computed at the
    three fixed points of the specification.  Severity High with
    panic_index 100 gives 2.2 and 1.0, and both fields absent give 1.4 and
    0.75, as stated; severity Low with panic_index 0 gives 0.8 and 0.55
    instead of the stated 0.6 and 0.3, because [panic_index or 50]
    replaces a stored 0 by 50; the binary64 evaluation of that point
    gives the same 0.8 and 0.55. *)
Theorem scores_at_fixed_points :
  ((priority_score (sample_report (Some "High") (Some 100%Z)) == 2.2)%Q ∧
   (final_intensity (sample_report (Some "High") (Some 100%Z)) == 1.0)%Q) ∧
  ((priority_score (sample_report (Some "Low") (Some 0%Z)) == 0.8)%Q ∧
   (final_intensity (sample_report (Some "Low") (Some 0%Z)) == 0.55)%Q ∧
   ¬ (priority_score (sample_report (Some "Low") (Some 0%Z)) == 0.6)%Q ∧
   ¬ (final_intensity (sample_report (Some "Low") (Some 0%Z)) == 0.3)%Q) ∧
  ((priority_score (sample_report None None) == 1.4)%Q ∧
   (final_intensity (sample_report None None) == 0.75)%Q) ∧
  ((Binary64.priority_score (sample_report (Some "Low") (Some 0%Z)) =? 0.8)%float = true ∧
   (Binary64.final_intensity (sample_report (Some "Low") (Some 0%Z)) =? 0.55)%float = true).
Proof. vm_compute. repeat split; discriminate. Qed.

(** C6 (the code departs from the claim): with severity Low fixed,
    raising panic_index from 0 to 1 lowers the priority score from 0.8 to
    0.604, in exact arithmetic and in binary64 alike, so the score is not
    monotone in panic_index on [0, 100]. *)
Theorem priority_score_drops_after_zero :
  (priority_score (sample_report (Some "Low") (Some 0%Z)) == 0.8)%Q ∧
  (priority_score (sample_report (Some "Low") (Some 1%Z)) == 0.604)%Q ∧
  (priority_score (sample_report (Some "Low") (Some 1%Z))
     < priority_score (sample_report (Some "Low") (Some 0%Z)))%Q ∧
  (Binary64.priority_score (sample_report (Some "Low") (Some 1%Z))
     <? Binary64.priority_score (sample_report (Some "Low") (Some 0%Z)))%float = true.
Proof. vm_compute. repeat split. Qed.

(** A negative stored panic_index, which the documented range excludes,
    would push the intensity below 0. *)
Lemma final_intensity_negative_panic :
  (final_intensity (sample_report (Some "Low") (Some (-100)%Z)) < 0)%Q.
Proof. vm_compute. reflexivity. Qed.



(** ** Priority list *)

Lemma priority_reports_length reports :
  length (priority_reports reports) = length reports.
Proof. unfold priority_reports. apply length_fmap. Qed.

Lemma get_priority_reports_submseteq reports :
  get_priority_reports reports ⊆+ priority_reports reports.
Proof.
  unfold get_priority_reports.
  rewrite <- (sort_reverse_perm PriorityReport.priority_score (priority_reports reports)) at 2.
  apply sublist_submseteq, sublist_take.
Qed.

Lemma Forall_of_submseteq {A} (P : A → Prop) (l k : list A) :
  l ⊆+ k → Forall P k → Forall P l.
Proof.
  rewrite !Forall_forall. intros Hsub Hk x Hx.
  apply Hk. by eapply elem_of_submseteq.
Qed.

(** Each entry pairs a report with the score computed from it. *)
Lemma get_priority_reports_scores reports :
  Forall (λ pr, PriorityReport.priority_score pr
                = priority_score (PriorityReport.report pr))
    (get_priority_reports reports).
Proof.
  eapply Forall_of_submseteq; [apply get_priority_reports_submseteq|].
  unfold priority_reports. apply Forall_fmap, Forall_true. done.
Qed.

(** C2: the top-priority list has at most 10 entries, is sorted in
    descending order of priority_score, keeps reports with equal scores
    in their retrieval order (for every score [k], the entries of the
    result with score [k] are an initial segment of the entries of the
    input with score [k]), holds one entry per stored report when there are
    at most 10 reports, and is empty for an empty collection. *)
Theorem get_priority_reports_ranked (reports : list HazardReport.t) :
  (length (get_priority_reports reports) ≤ 10)%nat ∧
  StronglySorted (desc PriorityReport.priority_score) (get_priority_reports reports) ∧
  (∀ k, List.filter (tied PriorityReport.priority_score k) (get_priority_reports reports)
        `prefix_of`
        List.filter (tied PriorityReport.priority_score k) (priority_reports reports)) ∧
  ((length reports ≤ 10)%nat →
     get_priority_reports reports ≡ₚ priority_reports reports ∧
     PriorityReport.report <$> get_priority_reports reports ≡ₚ reports) ∧
  (reports = [] → get_priority_reports reports = []).
Proof.
  unfold get_priority_reports.
  set (key := PriorityReport.priority_score).
  repeat split.
  - rewrite length_take. lia.
  - apply StronglySorted_take, sort_reverse_sorted.
  - intros k. rewrite <- (sort_reverse_stable key k (priority_reports reports)).
    apply filter_take_prefix.
  - rewrite take_ge, sort_reverse_perm; [done|].
    rewrite sort_reverse_perm, priority_reports_length. done.
  - rewrite take_ge.
    + rewrite sort_reverse_perm. unfold priority_reports.
      rewrite <- list_fmap_compose. by rewrite list_fmap_id.
    + rewrite sort_reverse_perm, priority_reports_length. done.
  - by intros ->.
Qed.

Lemma get_priority_reports_ranked_witness :
  ((length sample_reports ≤ 10)%nat ∧
   HazardReport.id <$> (PriorityReport.report <$> get_priority_reports sample_reports)
     = ["b"; "a"; "c"] ∧
   get_priority_reports sample_reports ≡ₚ priority_reports sample_reports) ∧
  (@nil HazardReport.t = [] ∧ get_priority_reports [] = []).
Proof.
  split.
  - split; [simpl; lia|]. split; [reflexivity|].
    apply (get_priority_reports_ranked sample_reports). simpl; lia.
  - split; [reflexivity|].
    apply (get_priority_reports_ranked []). reflexivity.
Defined.




(** ** Classification adapter *)


Lemma classify_try_object hazard_type (d : pydict) :
  classify_try hazard_type (Json (VDict d)) =
  inr {[ "severity" := dict_get d "severity" (VStr "Medium");
         "panic_index" := dict_get d "panic_index" (VInt 50);
         "ai_category" := dict_get d "ai_category" (VStr hazard_type);
         "reasoning" := dict_get d "reasoning" (VStr "AI analysis completed") ]}.
Proof. reflexivity. Qed.

Lemma classify_try_not_object hazard_type result :
  (∀ d, result ≠ VDict d) →
  classify_try hazard_type (Json result) = inl (AttributeError "get").
Proof. intros H. destruct result; try reflexivity. by destruct (H d). Qed.

Lemma classify_never_fails_aux (description hazard_type : string) (o : llm_outcome) :
  ∃ r : pydict,
    classify_hazard_with_ai description hazard_type o = inr r ∧
    match o with
    | Json (VDict d) =>
        r !! "severity" = Some (dict_get d "severity" (VStr "Medium")) ∧
        r !! "panic_index" = Some (dict_get d "panic_index" (VInt 50)) ∧
        r !! "ai_category" = Some (dict_get d "ai_category" (VStr hazard_type))
    | _ =>
        r !! "severity" = Some (VStr "Medium") ∧
        r !! "panic_index" = Some (VInt 50) ∧
        r !! "ai_category" = Some (VStr hazard_type)
    end.
Proof.
  unfold classify_hazard_with_ai.
  destruct o as [e | response | result]; [by eexists..|].
  destruct result; by eexists.
Qed.


(** ** Report creation *)

Lemma classify_result description hazard_type o :
  ∃ r : pydict,
    classify_hazard_with_ai description hazard_type o = inr r ∧
    r !! "severity" = Some (classified o "severity" (VStr "Medium")) ∧
    r !! "panic_index" = Some (classified o "panic_index" (VInt 50)) ∧
    r !! "ai_category" = Some (classified o "ai_category" (VStr hazard_type)).
Proof.
  destruct (classify_never_fails_aux description hazard_type o) as (r & Hr & H).
  exists r. split; [exact Hr|].
  destruct o as [e | response | result]; [naive_solver..|].
  destruct result; naive_solver.
Qed.

(** Creation always succeeds, appends exactly the returned report to the
    store, and the three classification fields of that report are the
    values handed over by the adapter. *)
Lemma create_report_stored fresh_id now name latitude longitude address
    hazard_type description media o db :
  ∃ doc : pydict,
    create_report fresh_id now name latitude longitude address hazard_type
      description media o db = inr (doc, insert_one doc db) ∧
    doc !! "severity" = Some (classified o "severity" (VStr "Medium")) ∧
    doc !! "panic_index" = Some (classified o "panic_index" (VInt 50)) ∧
    doc !! "ai_category" = Some (classified o "ai_category" (VStr hazard_type)) ∧
    doc !! "id" = Some (VStr fresh_id).
Proof.
  unfold create_report.
  destruct (classify_result description hazard_type o) as (r & -> & Hs & Hp & Hc).
  cbn [mbind exn_bind]. unfold dict_item. rewrite Hs, Hp, Hc. cbn [mbind exn_bind].
  eexists. split; [reflexivity|]. unfold prepare_for_mongo.
  repeat split.
Qed.


(** C8 (the code departs from the claim): a reply that parses to an
    object with panic_index 500 is stored as it is; creation applies no
    clamp and no range check, so the stored panic_index is outside
    [0, 100]. *)
Theorem created_report_keeps_unclamped_panic :
  ∃ doc : pydict,
    sample_create "r-3" reply_out_of_range [] = inr (doc, [doc]) ∧
    doc !! "panic_index" = Some (VInt 500) ∧
    ¬ (0 <= 500 <= 100)%Z.
Proof.
  destruct (create_report_stored "r-3" "2025-01-01T00:00:00+00:00"
    "Asha" 13.08 80.27 "Marina Beach" "Flood" "Water rising near the pier"
    None reply_out_of_range []) as (doc & Hdoc & _ & Hp & _).
  exists doc. split; [exact Hdoc|]. split; [exact Hp|]. lia.
Qed.




(** ** Deletion *)

Lemma doc_matches_id report_id doc :
  doc_matches [("id", report_id)] doc = true ↔ has_id report_id doc.
Proof.
  unfold doc_matches, field_is, has_id. simpl. rewrite andb_true_r.
  destruct (doc !! "id") as [[]|]; try (split; congruence).
  rewrite bool_decide_eq_true. split; congruence.
Qed.

Lemma delete_one_miss flt db :
  Forall (λ doc, doc_matches flt doc = false) db →
  delete_one flt db = (0%Z, db).
Proof.
  induction 1 as [|doc db Hdoc _ IH]; simpl; [done|].
  by rewrite Hdoc, IH.
Qed.

Lemma delete_one_hit flt before target after :
  Forall (λ doc, doc_matches flt doc = false) before →
  doc_matches flt target = true →
  delete_one flt (before ++ target :: after) = (1%Z, (before ++ after)%list).
Proof.
  intros Hb Ht. induction Hb as [|doc before Hdoc _ IH]; simpl.
  - by rewrite Ht.
  - by rewrite Hdoc, IH.
Qed.

(** The store splits at the first document matching a filter, if any. *)
Lemma first_match_split flt db :
  Forall (λ doc, doc_matches flt doc = false) db ∨
  ∃ before target after,
    db = (before ++ target :: after)%list ∧
    Forall (λ doc, doc_matches flt doc = false) before ∧
    doc_matches flt target = true.
Proof.
  induction db as [|doc db IH]; [by left|].
  destruct (doc_matches flt doc) eqn:E.
  - right. by exists [], doc, db.
  - destruct IH as [IH | (before & target & after & -> & Hb & Ht)].
    + left. by constructor.
    + right. exists (doc :: before), target, after. repeat split; [|done].
      by constructor.
Qed.

(** C9: deleting an id that no stored report carries yields the 404
    outcome and the store is unchanged; deleting an id that some stored
    report carries yields the success message and removes exactly one
    report, the first one carrying that id, every other document staying
    in place. *)
Theorem delete_report_outcome (report_id : string) (db : list pydict) :
  ((∀ doc, doc ∈ db → ¬ has_id report_id doc) →
   delete_report report_id db
     = (inl (HTTPException 404 "Report not found"), db)) ∧
  ((∃ doc, doc ∈ db ∧ has_id report_id doc) →
   ∃ before target after,
     db = (before ++ target :: after)%list ∧
     has_id report_id target ∧
     (∀ doc, doc ∈ before → ¬ has_id report_id doc) ∧
     delete_report report_id db
       = (inr {[ "message" := VStr "Report deleted successfully" ]},
          (before ++ after)%list)).
Proof.
  unfold delete_report. split.
  - intros Hnone. rewrite delete_one_miss; [done|].
    apply Forall_forall. intros doc Hdoc.
    apply not_true_is_false. rewrite doc_matches_id. by apply Hnone.
  - intros (doc & Hdoc & Hid).
    destruct (first_match_split [("id", report_id)] db)
      as [Hnone | (before & target & after & -> & Hb & Ht)].
    + rewrite Forall_forall in Hnone. specialize (Hnone doc Hdoc).
      apply doc_matches_id in Hid. congruence.
    + exists before, target, after. split; [done|].
      split; [by apply doc_matches_id|]. split.
      * intros d Hd. rewrite Forall_forall in Hb. specialize (Hb d Hd).
        rewrite <- doc_matches_id. congruence.
      * by rewrite delete_one_hit.
Qed.

Lemma sample_db_ids doc :
  doc ∈ sample_db →
  has_id "a" doc ∨ has_id "b" doc ∨ has_id "c" doc.
Proof.
  unfold sample_db, sample_reports. rewrite !fmap_cons, !elem_of_cons, fmap_nil, elem_of_nil.
  intros [-> | [-> | [-> | []]]]; [left | right; left | right; right]; reflexivity.
Qed.

Lemma delete_report_outcome_witness :
  ((∀ doc, doc ∈ sample_db → ¬ has_id "z" doc) ∧
   delete_report "z" sample_db
     = (inl (HTTPException 404 "Report not found"), sample_db)) ∧
  ((∃ doc, doc ∈ sample_db ∧ has_id "b" doc) ∧
   ∃ before target after,
     sample_db = (before ++ target :: after)%list ∧
     has_id "b" target ∧
     (∀ doc, doc ∈ before → ¬ has_id "b" doc) ∧
     delete_report "b" sample_db
       = (inr {[ "message" := VStr "Report deleted successfully" ]},
          (before ++ after)%list)).
Proof.
  assert (∀ doc, doc ∈ sample_db → ¬ has_id "z" doc) as Hz.
  { intros doc Hdoc Hid. unfold has_id in *.
    destruct (sample_db_ids doc Hdoc) as [H | [H | H]];
      unfold has_id in H; rewrite H in Hid; discriminate. }
  assert (∃ doc, doc ∈ sample_db ∧ has_id "b" doc) as Hb.
  { exists (report_dict (sample_with_id "b" (Some "High") (Some 90%Z))).
    split; [|reflexivity]. apply list_elem_of_further, list_elem_of_here. }
  split.
  - split; [exact Hz|]. apply (proj1 (delete_report_outcome "z" sample_db) Hz).
  - split; [exact Hb|]. apply (proj2 (delete_report_outcome "b" sample_db) Hb).
Defined.

(** ** Dashboard statistics *)

Lemma count_documents_all db : count_documents [] db = Z.of_nat (length db).
Proof.
  unfold count_documents. f_equal. f_equal.
  induction db as [|doc db IH]; simpl; [done|]. by rewrite IH.
Qed.

Lemma py_sum_ints_from a zs :
  foldl (λ acc v, x ← acc; py_add x v) (inr (VInt a)) (VInt <$> zs)
  = inr (VInt (a + foldr Z.add 0%Z zs)).
Proof.
  revert a. induction zs as [|z zs IH]; intros a.
  - simpl. by rewrite Z.add_0_r.
  - rewrite fmap_cons. cbn [foldl foldr].
    change (inr (VInt a) ≫= λ x, py_add x (VInt z))
      with (inr (VInt (a + z)) : exn + pyval).
    rewrite IH. by rewrite Z.add_assoc.
Qed.

Lemma total_panic_ints db zs :
  Forall2 contributes db zs →
  total_panic db = inr (VInt (foldr Z.add 0%Z zs)).
Proof.
  intros H. unfold total_panic, py_sum.
  assert ((λ report : pydict, dict_get report "panic_index" (VInt 50)) <$> db
          = VInt <$> zs) as ->.
  { induction H as [|doc z db zs Hc _ IH]; [done|].
    rewrite !fmap_cons, IH. f_equal. unfold dict_get.
    destruct Hc as [-> | [-> ->]]; reflexivity. }
  apply py_sum_ints_from.
Qed.



(** On an empty store the statistics are all zero and nothing is divided. *)
Lemma dashboard_empty :
  ∃ stats : pydict,
    get_dashboard_stats [] = inr stats ∧
    stats !! "total_reports" = Some (VInt 0) ∧
    stats !! "active_alerts" = Some (VInt 0) ∧
    ∃ q, stats !! "average_panic_index" = Some (VFloat q) ∧ (q == 0)%Q.
Proof.
  eexists. split; [reflexivity|]. do 2 (split; [reflexivity|]).
  eexists. split; reflexivity.
Qed.

(** When every stored panic_index is an integer or its key is absent, the
    average is the rounded mean, an absent key counting as 50. *)
Lemma dashboard_average_of_integers db zs :
  Forall2 contributes db zs → db ≠ [] →
  ∃ stats : pydict,
    get_dashboard_stats db = inr stats ∧
    stats !! "average_panic_index" =
      Some (VFloat (py_round1 (inject_Z (foldr Z.add 0%Z zs)
                               / inject_Z (Z.of_nat (length db))))).
Proof.
  intros H Hne. unfold get_dashboard_stats.
  rewrite (total_panic_ints db zs H), count_documents_all.
  cbn [mbind exn_bind]. unfold avg_panic.
  destruct (Z.ltb_spec 0 (Z.of_nat (length db))) as [_|Hlen].
  - cbn [as_number to_Q mbind exn_bind]. eexists. split; [reflexivity|].
    reflexivity.
  - destruct db; [done|]. simpl in Hlen. lia.
Qed.

(** C7 (the code departs from the claim): a report created from a reply
    that maps panic_index to null is stored with a null panic_index; the
    dashboard statistics over that store raise a TypeError instead of
    counting the report as 50, while the priority score of the same
    report does use 50. *)
Theorem dashboard_fails_on_null_panic :
  ∃ doc : pydict,
    sample_create "r-5" reply_null_panic [] = inr (doc, [doc]) ∧
    doc !! "panic_index" = Some VNone ∧
    get_dashboard_stats [doc]
      = inl (TypeError "unsupported operand type(s) for +") ∧
    (panic_score (sample_report (Some "High") None) == 50 / 100)%Q.
Proof.
  eexists. split; [vm_compute; reflexivity|].
  split; [vm_compute; reflexivity|].
  split; vm_compute; reflexivity.
Qed.

(** * Further properties *)

(** ** Classification and creation *)

(** X1: which handler answered shows in the reasoning string.  A call that
    raised and a reply that parses to something other than an object both
    give the fixed default with "Default classification applied"; a reply
    that is not JSON gives it with "AI analysis completed", and so does an
    object that has none of the four keys. *)
Theorem classify_fallback_reasoning (description hazard_type : string) (o : llm_outcome) :
  match o with
  | CallRaises _ =>
      classify_hazard_with_ai description hazard_type o
      = inr (fallback hazard_type "Default classification applied")
  | NotJson _ =>
      classify_hazard_with_ai description hazard_type o
      = inr (fallback hazard_type "AI analysis completed")
  | Json (VDict d) =>
      d !! "severity" = None → d !! "panic_index" = None →
      d !! "ai_category" = None → d !! "reasoning" = None →
      classify_hazard_with_ai description hazard_type o
      = inr (fallback hazard_type "AI analysis completed")
  | Json _ =>
      classify_hazard_with_ai description hazard_type o
      = inr (fallback hazard_type "Default classification applied")
  end.
Proof.
  destruct o as [e | response | result]; try reflexivity.
  destruct result; try reflexivity.
  intros Hs Hp Hc Hr. unfold classify_hazard_with_ai.
  rewrite classify_try_object. unfold dict_get. by rewrite Hs, Hp, Hc, Hr.
Qed.

Lemma classify_fallback_reasoning_witness :
  (∅ : pydict) !! "severity" = None ∧ (∅ : pydict) !! "panic_index" = None ∧
  (∅ : pydict) !! "ai_category" = None ∧ (∅ : pydict) !! "reasoning" = None ∧
  classify_hazard_with_ai "Oil on the water" "Oil Spill" (Json (VDict ∅))
  = inr (fallback "Oil Spill" "AI analysis completed").
Proof.
  repeat (split; [reflexivity|]).
  apply (classify_fallback_reasoning "Oil on the water" "Oil Spill" (Json (VDict ∅)));
    reflexivity.
Defined.


(** X3: when the reply is not a JSON object (the call raised, the text is
    not JSON, or it parses to a list, number, string or null), the report is
    still created and stored, classified Medium with panic_index 50 and
    ai_category equal to the submitted hazard_type. *)
Theorem create_report_fallback (fresh_id now name : string)
    (latitude longitude : Q) (address hazard_type description : string)
    (media : option UploadFile.t) (o : llm_outcome) (db : list pydict) :
  ¬ is_object o →
  ∃ doc : pydict,
    create_report fresh_id now name latitude longitude address hazard_type
      description media o db = inr (doc, insert_one doc db) ∧
    doc !! "severity" = Some (VStr "Medium") ∧
    doc !! "panic_index" = Some (VInt 50) ∧
    doc !! "ai_category" = Some (VStr hazard_type).
Proof.
  intros Ho.
  destruct (create_report_stored fresh_id now name latitude longitude address
    hazard_type description media o db) as (doc & Hdoc & Hs & Hp & Hc & _).
  exists doc. split; [exact Hdoc|].
  assert (∀ key dflt, classified o key dflt = dflt) as Hd.
  { intros key dflt. destruct o as [e | response | result]; try done.
    destruct result; try done. }
  by rewrite Hd in Hs, Hp, Hc.
Qed.

Lemma create_report_fallback_witness :
  ¬ is_object (CallRaises (ServiceError "timeout")) ∧
  ∃ doc : pydict,
    sample_create "r-6" (CallRaises (ServiceError "timeout")) sample_db
      = inr (doc, insert_one doc sample_db) ∧
    doc !! "severity" = Some (VStr "Medium") ∧
    doc !! "panic_index" = Some (VInt 50) ∧
    doc !! "ai_category" = Some (VStr "Flood").
Proof.
  assert (¬ is_object (CallRaises (ServiceError "timeout"))) as H by (intros []).
  split; [exact H|].
  apply (create_report_fallback "r-6" "2025-01-01T00:00:00+00:00"
    "Asha" 13.08 80.27 "Marina Beach" "Flood" "Water rising near the pier"
    None (CallRaises (ServiceError "timeout")) sample_db H).
Defined.

(** X4: creating a report under an id no stored report carries and then
    deleting that id succeeds and gives back the store as it was. *)
Theorem create_then_delete (fresh_id now name : string)
    (latitude longitude : Q) (address hazard_type description : string)
    (media : option UploadFile.t) (o : llm_outcome) (db : list pydict) :
  (∀ doc, doc ∈ db → ¬ has_id fresh_id doc) →
  ∃ doc db',
    create_report fresh_id now name latitude longitude address hazard_type
      description media o db = inr (doc, db') ∧
    delete_report fresh_id db' = (inr success_message, db).
Proof.
  intros Hfresh.
  destruct (create_report_stored fresh_id now name latitude longitude address
    hazard_type description media o db) as (doc & Hdoc & _ & _ & _ & Hid).
  exists doc, (insert_one doc db). split; [exact Hdoc|].
  unfold delete_report, insert_one.
  rewrite delete_one_hit.
  - by rewrite app_nil_r.
  - apply Forall_forall. intros d Hd. apply not_true_is_false.
    rewrite doc_matches_id. by apply Hfresh.
  - by apply doc_matches_id.
Qed.

Lemma sample_db_fresh : ∀ doc, doc ∈ sample_db → ¬ has_id "r-7" doc.
Proof.
  intros doc Hdoc Hid. unfold has_id in *.
  destruct (sample_db_ids doc Hdoc) as [H | [H | H]];
    unfold has_id in H; rewrite H in Hid; discriminate.
Qed.

Lemma create_then_delete_witness :
  (∀ doc, doc ∈ sample_db → ¬ has_id "r-7" doc) ∧
  ∃ doc db',
    sample_create "r-7" reply_out_of_range sample_db = inr (doc, db') ∧
    delete_report "r-7" db' = (inr success_message, sample_db).
Proof.
  split; [exact sample_db_fresh|].
  apply (create_then_delete "r-7" "2025-01-01T00:00:00+00:00"
    "Asha" 13.08 80.27 "Marina Beach" "Flood" "Water rising near the pier"
    None reply_out_of_range sample_db sample_db_fresh).
Defined.

(** ** Deletion *)

Lemma delete_one_shape flt db :
  (Forall (λ doc, doc_matches flt doc = false) db ∧ delete_one flt db = (0%Z, db)) ∨
  ∃ before target after,
    db = (before ++ target :: after)%list ∧
    Forall (λ doc, doc_matches flt doc = false) before ∧
    doc_matches flt target = true ∧
    delete_one flt db = (1%Z, (before ++ after)%list).
Proof.
  destruct (first_match_split flt db) as [H | (before & target & after & -> & Hb & Ht)].
  - left. split; [done|]. by apply delete_one_miss.
  - right. exists before, target, after. repeat split; try done.
    by apply delete_one_hit.
Qed.

Lemma filter_none {A} (p : A → bool) l :
  Forall (λ x, p x = false) l → List.filter p l = [].
Proof. induction 1 as [|x l Hx _ IH]; simpl; [done|]. by rewrite Hx. Qed.

(** X5: whatever the outcome, deletion only drops documents: the store
    afterwards is a sublist of the store before, the documents that do not
    carry the id are the same in the same order, the number of documents
    carrying the id goes down by one unless it was zero, and the total
    goes down by one exactly when some document carried the id. *)
Theorem delete_report_keeps_others (report_id : string) (db : list pydict) :
  (delete_report report_id db).2 `sublist_of` db ∧
  List.filter (λ doc, negb (carries report_id doc)) (delete_report report_id db).2
    = List.filter (λ doc, negb (carries report_id doc)) db ∧
  count_documents [("id", report_id)] (delete_report report_id db).2
    = (0 `max` (count_documents [("id", report_id)] db - 1))%Z ∧
  count_documents [] (delete_report report_id db).2
    = (if decide (count_documents [("id", report_id)] db = 0)%Z
       then count_documents [] db else count_documents [] db - 1)%Z.
Proof.
  unfold delete_report, carries.
  destruct (delete_one_shape [("id", report_id)] db)
    as [[Hnone ->] | (before & target & after & -> & Hb & Ht & ->)];
    cbn [Z.eqb snd].
  - assert (count_documents [("id", report_id)] db = 0%Z) as Hc.
    { unfold count_documents. by rewrite (filter_none _ _ Hnone). }
    rewrite Hc, decide_True by done. done.
  - assert (count_documents [("id", report_id)] (before ++ target :: after)
            = 1 + count_documents [("id", report_id)] (before ++ after))%Z as Hc.
    { unfold count_documents. rewrite !List.filter_app. cbn [List.filter].
      rewrite Ht, !length_app. cbn [length]. lia. }
    assert (0 <= count_documents [("id", report_id)] (before ++ after))%Z as Hnn.
    { unfold count_documents. lia. }
    rewrite Hc, decide_False by lia.
    split; [apply sublist_app; [done | by apply sublist_cons]|].
    split; [|split; [lia|]].
    + rewrite !List.filter_app. cbn [List.filter]. by rewrite Ht.
    + rewrite !count_documents_all, !length_app. cbn [length]. lia.
Qed.

(** ** Priority list and scores *)

(** X6: the priority list has exactly min(10, number of reports) entries,
    and it is a top segment: together with the reports left out it is a
    rearrangement of all scored reports, and no report left out has a
    higher score than a report in the list. *)
Theorem get_priority_reports_top (reports : list HazardReport.t) :
  length (get_priority_reports reports) = (10 `min` length reports)%nat ∧
  ∃ rest,
    (get_priority_reports reports ++ rest)%list ≡ₚ priority_reports reports ∧
    ∀ pr pr', pr ∈ get_priority_reports reports → pr' ∈ rest →
      (PriorityReport.priority_score pr' <= PriorityReport.priority_score pr)%Q.
Proof.
  unfold get_priority_reports.
  set (s := sort_reverse PriorityReport.priority_score (priority_reports reports)).
  split.
  - rewrite length_take. unfold s.
    by rewrite sort_reverse_perm, priority_reports_length.
  - exists (drop 10 s). split.
    + rewrite take_drop. apply sort_reverse_perm.
    + intros pr pr' Hpr Hpr'.
      pose proof (sort_reverse_sorted PriorityReport.priority_score
                    (priority_reports reports)) as Hs.
      fold s in Hs. rewrite <- (take_drop 10 s) in Hs.
      exact (StronglySorted_app_1_elem_of _ _ _ _ _ Hs Hpr Hpr').
Qed.

(** X7: between the known severities the score follows the rank
    Low < Medium < High: with the same panic_index, a report of lower or
    equal rank never scores higher. *)
Theorem priority_score_monotone_in_rank (r1 r2 : HazardReport.t)
    (s1 s2 : string) (k1 k2 : nat) :
  HazardReport.severity r1 = Some s1 →
  HazardReport.severity r2 = Some s2 →
  severity_rank s1 = Some k1 →
  severity_rank s2 = Some k2 →
  (k1 ≤ k2)%nat →
  HazardReport.panic_index r1 = HazardReport.panic_index r2 →
  (priority_score r1 <= priority_score r2)%Q.
Proof.
  intros H1 H2 Hk1 Hk2 Hle Hp.
  apply priority_score_mono_severity; [done|].
  unfold severity_score, dict_get_opt. rewrite H1, H2.
  unfold severity_rank in Hk1, Hk2.
  repeat case_decide; simplify_eq; vm_compute; first [discriminate | lia].
Qed.

Lemma priority_score_monotone_in_rank_witness :
  HazardReport.severity (sample_report (Some "Medium") (Some 30%Z)) = Some "Medium" ∧
  HazardReport.severity (sample_report (Some "High") (Some 30%Z)) = Some "High" ∧
  severity_rank "Medium" = Some 2%nat ∧
  severity_rank "High" = Some 3%nat ∧
  (2 ≤ 3)%nat ∧
  HazardReport.panic_index (sample_report (Some "Medium") (Some 30%Z))
    = HazardReport.panic_index (sample_report (Some "High") (Some 30%Z)) ∧
  (priority_score (sample_report (Some "Medium") (Some 30%Z))
   <= priority_score (sample_report (Some "High") (Some 30%Z)))%Q.
Proof.
  do 4 (split; [reflexivity|]). split; [lia|]. split; [reflexivity|].
  apply (priority_score_monotone_in_rank
           (sample_report (Some "Medium") (Some 30%Z))
           (sample_report (Some "High") (Some 30%Z))
           "Medium" "High" 2 3); first [reflexivity | lia].
Defined.

(** X8: with the same severity, neither the priority score nor the
    heatmap intensity decreases when the panic_index increases between two
    stored values that are both different from 0. *)
Theorem priority_score_monotone_in_nonzero_panic (r1 r2 : HazardReport.t)
    (p1 p2 : Z) :
  HazardReport.severity r1 = HazardReport.severity r2 →
  HazardReport.panic_index r1 = Some p1 →
  HazardReport.panic_index r2 = Some p2 →
  p1 ≠ 0%Z → p2 ≠ 0%Z → (p1 <= p2)%Z →
  (priority_score r1 <= priority_score r2)%Q ∧
  (final_intensity r1 <= final_intensity r2)%Q.
Proof.
  intros Hs H1 H2 Hz1 Hz2 Hle. split.
  - by eapply priority_score_mono_panic.
  - unfold final_intensity, intensity, panic_boost.
    rewrite Hs, H1, H2, !py_or_nonzero by done.
    apply Q.min_le_compat_r.
    rewrite Zle_Qle in Hle.
    set (q1 := inject_Z p1) in *. set (q2 := inject_Z p2) in *.
    change (q1 / 200)%Q with (q1 * (1 # 200))%Q.
    change (q2 / 200)%Q with (q2 * (1 # 200))%Q.
    lra.
Qed.

Lemma priority_score_monotone_in_nonzero_panic_witness :
  HazardReport.severity (sample_report (Some "Low") (Some 1%Z))
    = HazardReport.severity (sample_report (Some "Low") (Some 100%Z)) ∧
  HazardReport.panic_index (sample_report (Some "Low") (Some 1%Z)) = Some 1%Z ∧
  HazardReport.panic_index (sample_report (Some "Low") (Some 100%Z)) = Some 100%Z ∧
  1%Z ≠ 0%Z ∧ 100%Z ≠ 0%Z ∧ (1 <= 100)%Z ∧
  (priority_score (sample_report (Some "Low") (Some 1%Z))
   <= priority_score (sample_report (Some "Low") (Some 100%Z)))%Q ∧
  (final_intensity (sample_report (Some "Low") (Some 1%Z))
   <= final_intensity (sample_report (Some "Low") (Some 100%Z)))%Q.
Proof.
  do 3 (split; [reflexivity|]). do 3 (split; [lia|]).
  apply (priority_score_monotone_in_nonzero_panic
           (sample_report (Some "Low") (Some 1%Z))
           (sample_report (Some "Low") (Some 100%Z)) 1 100);
    first [reflexivity | lia].
Defined.

(** X9: a severity that is missing or is none of Low, Medium, High counts
    as Medium for the priority score, but its heatmap base is 0.5, below
    Medium's 0.6: the report scores like a Medium one with the same
    panic_index and its intensity is never above that Medium report's. *)
Theorem unknown_severity_defaults (report medium : HazardReport.t) :
  (∀ s, HazardReport.severity report = Some s →
        s ≠ "Low" ∧ s ≠ "Medium" ∧ s ≠ "High") →
  HazardReport.severity medium = Some "Medium" →
  HazardReport.panic_index medium = HazardReport.panic_index report →
  (priority_score report == priority_score medium)%Q ∧
  (intensity report == 0.5)%Q ∧
  (intensity medium == 0.6)%Q ∧
  (final_intensity report <= final_intensity medium)%Q.
Proof.
  intros Hs Hm Hp.
  assert (severity_score report = 2%Z ∧ intensity report = 0.5%Q) as [Hw Hi].
  { unfold severity_score, intensity, dict_get_opt, dict_get,
      severity_weights, intensity_weights.
    destruct (HazardReport.severity report) as [s|]; [|done].
    destruct (Hs s eq_refl) as (? & ? & ?).
    by rewrite !lookup_insert_ne, !lookup_singleton_ne by done. }
  assert (severity_score medium = 2%Z ∧ intensity medium = 0.6%Q) as [Hw' Hi'].
  { unfold severity_score, intensity. by rewrite Hm. }
  repeat split.
  - unfold priority_score, panic_score. by rewrite Hw, Hw', Hp.
  - by rewrite Hi.
  - by rewrite Hi'.
  - unfold final_intensity, panic_boost. rewrite Hi, Hi', Hp.
    apply Q.min_le_compat_r. lra.
Qed.

Lemma unknown_severity_defaults_witness :
  (∀ s, HazardReport.severity (sample_report (Some "high") (Some 40%Z)) = Some s →
        s ≠ "Low" ∧ s ≠ "Medium" ∧ s ≠ "High") ∧
  HazardReport.severity (sample_report (Some "Medium") (Some 40%Z)) = Some "Medium" ∧
  HazardReport.panic_index (sample_report (Some "Medium") (Some 40%Z))
    = HazardReport.panic_index (sample_report (Some "high") (Some 40%Z)) ∧
  (priority_score (sample_report (Some "high") (Some 40%Z))
   == priority_score (sample_report (Some "Medium") (Some 40%Z)))%Q ∧
  (intensity (sample_report (Some "high") (Some 40%Z)) == 0.5)%Q ∧
  (intensity (sample_report (Some "Medium") (Some 40%Z)) == 0.6)%Q ∧
  (final_intensity (sample_report (Some "high") (Some 40%Z))
   <= final_intensity (sample_report (Some "Medium") (Some 40%Z)))%Q.
Proof.
  assert (∀ s, HazardReport.severity (sample_report (Some "high") (Some 40%Z)) = Some s →
               s ≠ "Low" ∧ s ≠ "Medium" ∧ s ≠ "High") as H.
  { intros s [= <-]. repeat split; discriminate. }
  split; [exact H|]. do 2 (split; [reflexivity|]).
  apply (unknown_severity_defaults
           (sample_report (Some "high") (Some 40%Z))
           (sample_report (Some "Medium") (Some 40%Z)) H); reflexivity.
Defined.

(** X10: the heatmap intensity saturates at 1: a High report has
    intensity 1 for every panic_index that is missing or not negative, and
    a Medium report has intensity 1 from panic_index 80 on. *)
Theorem intensity_saturates (report : HazardReport.t) :
  (HazardReport.severity report = Some "High" ∧
   match HazardReport.panic_index report with
   | Some z => (0 <= z)%Z
   | None => True
   end) ∨
  (HazardReport.severity report = Some "Medium" ∧
   ∃ z, HazardReport.panic_index report = Some z ∧ (80 <= z)%Z) →
  (final_intensity report == 1)%Q.
Proof.
  intros H. unfold final_intensity.
  assert (1.0 <= intensity report + panic_boost report)%Q as Hge.
  { unfold intensity, panic_boost, dict_get_opt.
    destruct H as [[-> Hp] | [-> (z & -> & Hz)]].
    - assert (0 <= py_or (HazardReport.panic_index report) 50)%Z as Hz.
      { unfold py_or. destruct (HazardReport.panic_index report) as [z|]; [|lia].
        destruct (Z.eqb_spec z 0); lia. }
      rewrite Zle_Qle in Hz. change (inject_Z 0) with 0%Q in Hz.
      set (q := inject_Z _) in *.
      change (q / 200)%Q with (q * (1 # 200))%Q.
      change (dict_get intensity_weights "High" 0.5%Q) with 1.0%Q. lra.
    - rewrite py_or_nonzero by lia.
      rewrite Zle_Qle in Hz. change (inject_Z 80) with 80%Q in Hz.
      set (q := inject_Z z) in *.
      change (q / 200)%Q with (q * (1 # 200))%Q.
      change (dict_get intensity_weights "Medium" 0.5%Q) with 0.6%Q. lra. }
  rewrite (Q.min_r _ _ Hge). reflexivity.
Qed.

Lemma intensity_saturates_witness :
  ((HazardReport.severity (sample_report (Some "Medium") (Some 80%Z)) = Some "High" ∧
    match HazardReport.panic_index (sample_report (Some "Medium") (Some 80%Z)) with
    | Some z => (0 <= z)%Z
    | None => True
    end) ∨
   (HazardReport.severity (sample_report (Some "Medium") (Some 80%Z)) = Some "Medium" ∧
    ∃ z, HazardReport.panic_index (sample_report (Some "Medium") (Some 80%Z)) = Some z ∧
         (80 <= z)%Z)) ∧
  (final_intensity (sample_report (Some "Medium") (Some 80%Z)) == 1)%Q.
Proof.
  assert (HazardReport.severity (sample_report (Some "Medium") (Some 80%Z)) = Some "Medium" ∧
          ∃ z, HazardReport.panic_index (sample_report (Some "Medium") (Some 80%Z)) = Some z ∧
               (80 <= z)%Z) as H.
  { split; [reflexivity|]. exists 80%Z. split; [reflexivity|lia]. }
  split; [right; exact H|].
  apply (intensity_saturates (sample_report (Some "Medium") (Some 80%Z))).
  right; exact H.
Defined.

(** ** Dashboard statistics *)






(** X11: on an empty store the statistics are total_reports 0, the three
    severity counts 0, active_alerts 0 and average_panic_index 0; nothing
    is divided by the zero total. *)
Theorem dashboard_on_empty_store :
  ∃ (stats : pydict) (q : Q),
    get_dashboard_stats [] = inr stats ∧
    stats !! "total_reports" = Some (VInt 0) ∧
    stats !! "severity_breakdown" =
      Some (VDict {[ "high" := VInt 0; "medium" := VInt 0; "low" := VInt 0 ]}) ∧
    stats !! "active_alerts" = Some (VInt 0) ∧
    stats !! "average_panic_index" = Some (VFloat q) ∧ (q == 0)%Q.
Proof.
  eexists _, _. split; [reflexivity|]. do 4 (split; [reflexivity|]). reflexivity.
Qed.
















(** ** Hazard-type tally *)

Lemma counts_set_string_keyed counts s n :
  string_keyed counts → string_keyed (counts_set counts (VStr s) n).
Proof.
  unfold string_keyed.
  induction 1 as [|[k m] counts [t Hk] Hrest IH]; simpl.
  - repeat constructor. by exists s.
  - simpl in Hk. subst k. simpl.
    case_bool_decide; constructor; simpl; eauto.
Qed.

Lemma counts_get_set counts s s' n :
  string_keyed counts →
  counts_get (counts_set counts (VStr s) n) (VStr s') 0
  = if decide (s = s') then n else counts_get counts (VStr s') 0.
Proof.
  induction 1 as [|[k m] counts [t Hk] _ IH]; simpl.
  - case_bool_decide; case_decide; done.
  - simpl in Hk. subst k. simpl.
    case_bool_decide; simpl.
    + subst t. case_bool_decide; case_decide; done.
    + rewrite IH. case_bool_decide; case_decide; simplify_eq; done.
Qed.

Lemma counts_total_set counts s n :
  string_keyed counts →
  counts_total (counts_set counts (VStr s) n)
  = (counts_total counts - counts_get counts (VStr s) 0 + n)%Z.
Proof.
  induction 1 as [|[k m] counts [t Hk] _ IH]; simpl; [lia|].
  simpl in Hk. subst k. simpl.
  case_bool_decide; simpl; [lia|]. rewrite IH. lia.
Qed.

Lemma counts_set_positive counts key n :
  Forall (λ kv, (1 <= kv.2)%Z) counts → (1 <= n)%Z →
  Forall (λ kv, (1 <= kv.2)%Z) (counts_set counts key n).
Proof.
  intros H Hn. induction H as [|[k m] counts Hk Hrest IH]; simpl.
  - by repeat constructor.
  - destruct (py_key_eq k key); constructor; done.
Qed.

Lemma counts_get_nonneg counts key :
  Forall (λ kv, (1 <= kv.2)%Z) counts → (0 <= counts_get counts key 0)%Z.
Proof.
  induction 1 as [|[k m] counts Hk _ IH]; simpl; [done|].
  destruct (py_key_eq k key); simpl in *; lia.
Qed.

Lemma hazard_types_snoc reports report :
  hazard_types (reports ++ [report])
  = (counts ← hazard_types reports; count_hazard_type counts report).
Proof. unfold hazard_types. by rewrite foldl_app. Qed.

(** X16: over a store whose hazard_type values are strings or absent keys,
    the tally is computed; the count under each name is the number of
    documents with that hazard_type, a document without the key counting
    under "Other"; the counts add up to the number of documents and every
    listed count is at least 1. *)
Theorem hazard_types_counts (db : list pydict) :
  Forall (λ doc, ∃ s, hazard_type_of doc = VStr s) db →
  ∃ counts,
    hazard_types db = inr counts ∧
    (∀ s, counts_get counts (VStr s) 0
          = Z.of_nat (length (List.filter (has_hazard_type s) db))) ∧
    counts_total counts = Z.of_nat (length db) ∧
    Forall (λ kv, (1 <= kv.2)%Z) counts.
Proof.
  intros H.
  cut (∃ counts, hazard_types db = inr counts ∧ string_keyed counts ∧
        (∀ s, counts_get counts (VStr s) 0
              = Z.of_nat (length (List.filter (has_hazard_type s) db))) ∧
        counts_total counts = Z.of_nat (length db) ∧
        Forall (λ kv, (1 <= kv.2)%Z) counts).
  { intros (counts & ? & _ & ?). by exists counts. }
  induction db as [|doc db IH] using rev_ind.
  - exists []. repeat split; constructor.
  - apply Forall_app in H as [Hdb Hdoc]. apply Forall_singleton in Hdoc as [t Ht].
    destruct (IH Hdb) as (counts & Hc & Hkeys & Hget & Htot & Hpos).
    rewrite hazard_types_snoc, Hc. cbn [mbind exn_bind].
    unfold count_hazard_type. rewrite Ht. cbn [hashable].
    eexists. split; [reflexivity|].
    split; [by apply counts_set_string_keyed|]. split; [|split].
    + intros s. rewrite counts_get_set by done.
      rewrite List.filter_app, length_app. cbn [List.filter].
      unfold has_hazard_type at 2. rewrite Ht.
      destruct (decide (t = s)) as [->|Hts].
      * rewrite bool_decide_eq_true_2 by done. rewrite Hget. cbn [length]. lia.
      * rewrite bool_decide_eq_false_2 by done. rewrite Hget. cbn [length]. lia.
    + rewrite counts_total_set by done. rewrite Htot, length_app. cbn [length]. lia.
    + apply counts_set_positive; [done|].
      pose proof (counts_get_nonneg counts (VStr t) Hpos). lia.
Qed.

Lemma hazard_types_counts_witness :
  Forall (λ doc, ∃ s, hazard_type_of doc = VStr s) sample_db_types ∧
  ∃ counts,
    hazard_types sample_db_types = inr counts ∧
    (∀ s, counts_get counts (VStr s) 0
          = Z.of_nat (length (List.filter (has_hazard_type s) sample_db_types))) ∧
    counts_total counts = Z.of_nat (length sample_db_types) ∧
    Forall (λ kv, (1 <= kv.2)%Z) counts.
Proof.
  assert (Forall (λ doc, ∃ s, hazard_type_of doc = VStr s) sample_db_types) as H.
  { repeat constructor; eexists; reflexivity. }
  split; [exact H|]. apply (hazard_types_counts sample_db_types H).
Defined.

Lemma hazard_types_raised e reports :
  foldl (λ acc report, counts ← acc; count_hazard_type counts report)
        (inl e) reports = inl e.
Proof. induction reports as [|r reports IH]; [done|]. exact IH. Qed.

(** X17: as soon as one stored hazard_type is a list or an object, the
    tally raises a TypeError, whatever the other documents hold. *)
Theorem hazard_types_unhashable (db : list pydict) :
  Exists (λ doc, hashable (hazard_type_of doc) = false) db →
  hazard_types db = inl (TypeError "unhashable type").
Proof.
  intros H. unfold hazard_types. generalize (@nil (pyval * Z)).
  induction H as [doc db Hdoc | doc db _ IH]; intros counts; cbn [foldl];
    change (inr counts ≫= λ c, count_hazard_type c doc)
      with (count_hazard_type counts doc);
    unfold count_hazard_type.
  - rewrite Hdoc. apply hazard_types_raised.
  - destruct (hashable (hazard_type_of doc)); [apply IH|apply hazard_types_raised].
Qed.

Lemma hazard_types_unhashable_witness :
  Exists (λ doc, hashable (hazard_type_of doc) = false) sample_db_unhashable ∧
  hazard_types sample_db_unhashable = inl (TypeError "unhashable type").
Proof.
  assert (Exists (λ doc, hashable (hazard_type_of doc) = false) sample_db_unhashable)
    as H.
  { constructor. reflexivity. }
  split; [exact H|]. apply (hazard_types_unhashable sample_db_unhashable H).
Defined.

(** ** Binary64 against exact arithmetic *)

Lemma in_grid report :
  panic_in_range report →
  In (severity_score report, py_or (HazardReport.panic_index report) 50) grid.
Proof.
  intros Hp. apply in_prod.
  - destruct (severity_score_cases report) as [-> | [-> | ->]]; simpl; auto.
  - by apply list_elem_of_In, py_or_in_panics.
Qed.

Lemma order_agrees : order_agrees_ok = true.
Proof. vm_compute. reflexivity. Qed.

Lemma binary64_order_agrees r1 r2 :
  panic_in_range r1 → panic_in_range r2 →
  (Binary64.priority_score r1 <=? Binary64.priority_score r2)%float
  = Qle_bool (priority_score r1) (priority_score r2).
Proof.
  intros H1 H2. apply in_grid in H1, H2.
  pose proof order_agrees as H. unfold order_agrees_ok in H.
  rewrite forallb_forall in H. specialize (H _ H1).
  rewrite forallb_forall in H. specialize (H _ H2).
  apply bool_decide_eq_true in H. exact H.
Qed.

Lemma float_insert_agrees x l :
  panic_in_range x → Forall panic_in_range l →
  (λ report, PriorityReport.mk report (priority_score report)) <$> float_insert_desc x l
  = insert_desc PriorityReport.priority_score
      (PriorityReport.mk x (priority_score x))
      ((λ report, PriorityReport.mk report (priority_score report)) <$> l).
Proof.
  intros Hx Hl. induction Hl as [|y l Hy Hl IH]; [done|].
  cbn [float_insert_desc fmap list_fmap insert_desc PriorityReport.priority_score].
  rewrite (binary64_order_agrees y x Hy Hx).
  destruct (Qle_bool (priority_score y) (priority_score x)); [done|].
  rewrite fmap_cons. by rewrite IH.
Qed.

Lemma float_insert_in_range x l :
  panic_in_range x → Forall panic_in_range l →
  Forall panic_in_range (float_insert_desc x l).
Proof.
  intros Hx Hl. induction Hl as [|y l Hy Hl IH]; simpl.
  - by constructor.
  - destruct (_ <=? _)%float; repeat constructor; done.
Qed.

Lemma float_sort_agrees reports :
  Forall panic_in_range reports →
  Forall panic_in_range (foldr float_insert_desc [] reports) ∧
  (λ report, PriorityReport.mk report (priority_score report))
    <$> foldr float_insert_desc [] reports
  = sort_reverse PriorityReport.priority_score (priority_reports reports).
Proof.
  induction 1 as [|x reports Hx Hr [IHr IH]]; [by split|].
  split; [by apply float_insert_in_range|].
  cbn [foldr]. rewrite float_insert_agrees by done. rewrite IH. reflexivity.
Qed.

(** X18: for a collection whose panic_index values are missing or in
    [0, 100], ranking by the binary64 scores with binary64 comparisons
    gives the same reports in the same order as the priority list computed
    in exact arithmetic. *)
Theorem binary64_priority_list_agrees (reports : list HazardReport.t) :
  Forall panic_in_range reports →
  float_priority_reports reports
  = PriorityReport.report <$> get_priority_reports reports.
Proof.
  intros H. unfold float_priority_reports, get_priority_reports.
  destruct (float_sort_agrees reports H) as [_ <-].
  rewrite <- fmap_take, <- list_fmap_compose. by rewrite list_fmap_id.
Qed.

Lemma sample_reports_in_range_ok : Forall panic_in_range sample_reports_in_range.
Proof. repeat constructor; unfold panic_in_range; simpl; lia. Qed.

Lemma binary64_priority_list_agrees_witness :
  Forall panic_in_range sample_reports_in_range ∧
  float_priority_reports sample_reports_in_range
  = PriorityReport.report <$> get_priority_reports sample_reports_in_range.
Proof.
  split; [exact sample_reports_in_range_ok|].
  apply (binary64_priority_list_agrees sample_reports_in_range
           sample_reports_in_range_ok).
Defined.

Lemma scores_close : scores_close_ok = true.
Proof. vm_compute. reflexivity. Qed.

Lemma intensities_close : intensities_close_ok = true.
Proof. vm_compute. reflexivity. Qed.

Lemma intensity_base_pair report :
  In (Binary64.intensity report, intensity report) intensity_bases.
Proof.
  unfold Binary64.intensity, intensity, dict_get_opt, dict_get,
    Binary64.intensity_weights, intensity_weights, intensity_bases.
  destruct (HazardReport.severity report) as [s|]; [|simpl; auto].
  destruct (decide (s = "Low")) as [->|]; [simpl; auto|].
  destruct (decide (s = "Medium")) as [->|]; [simpl; auto|].
  destruct (decide (s = "High")) as [->|]; [simpl; auto|].
  rewrite !lookup_insert_ne, !lookup_singleton_ne by done. simpl; auto.
Qed.

(** X19: for a report whose panic_index is missing or in [0, 100], the
    priority score and the heatmap intensity evaluated in binary64 are
    finite and within 10^-15 of their exact values. *)
Theorem binary64_scores_close (report : HazardReport.t) :
  panic_in_range report →
  ∃ s i : Q,
    Q_of_float (Binary64.priority_score report) = Some s ∧
    Q_of_float (Binary64.final_intensity report) = Some i ∧
    (priority_score report - tolerance <= s <= priority_score report + tolerance)%Q ∧
    (final_intensity report - tolerance <= i <= final_intensity report + tolerance)%Q.
Proof.
  intros Hp.
  pose proof (in_grid report Hp) as Hg.
  pose proof (py_or_in_panics report Hp) as Hpan. apply list_elem_of_In in Hpan.
  pose proof scores_close as Hs. unfold scores_close_ok in Hs.
  rewrite forallb_forall in Hs. specialize (Hs _ Hg). cbn [fst snd] in Hs.
  pose proof intensities_close as Hi. unfold intensities_close_ok in Hi.
  rewrite forallb_forall in Hi. specialize (Hi _ (intensity_base_pair report)).
  rewrite forallb_forall in Hi. specialize (Hi _ Hpan). cbn [fst snd] in Hi.
  unfold close_to in Hs, Hi.
  change (Binary64.score_of _ _) with (Binary64.priority_score report) in Hs.
  change (Binary64.intensity_of _ _) with (Binary64.final_intensity report) in Hi.
  change (exact_score _ _) with (priority_score report) in Hs.
  change (exact_intensity _ _) with (final_intensity report) in Hi.
  destruct (Q_of_float (Binary64.priority_score report)) as [s|]; [|done].
  destruct (Q_of_float (Binary64.final_intensity report)) as [i|]; [|done].
  exists s, i. split; [done|]. split; [done|].
  apply andb_true_iff in Hs as [Hs1 Hs2]. apply andb_true_iff in Hi as [Hi1 Hi2].
  apply Qle_bool_iff in Hs1, Hs2, Hi1, Hi2. done.
Qed.

Lemma binary64_scores_close_witness :
  panic_in_range (sample_report (Some "High") (Some 100%Z)) ∧
  ∃ s i : Q,
    Q_of_float (Binary64.priority_score (sample_report (Some "High") (Some 100%Z)))
      = Some s ∧
    Q_of_float (Binary64.final_intensity (sample_report (Some "High") (Some 100%Z)))
      = Some i ∧
    (priority_score (sample_report (Some "High") (Some 100%Z)) - tolerance <= s
     <= priority_score (sample_report (Some "High") (Some 100%Z)) + tolerance)%Q ∧
    (final_intensity (sample_report (Some "High") (Some 100%Z)) - tolerance <= i
     <= final_intensity (sample_report (Some "High") (Some 100%Z)) + tolerance)%Q.
Proof.
  assert (panic_in_range (sample_report (Some "High") (Some 100%Z))) as H.
  { unfold panic_in_range; simpl; lia. }
  split; [exact H|].
  apply (binary64_scores_close (sample_report (Some "High") (Some 100%Z)) H).
Defined.
